(** * Data::NotifySettings: per-peer notification settings

    A shallow embedding of
    [Telegram/SourceFiles/data/data_notify_settings.cpp]: the sound codec
    ([ParseSound], [SerializeSound]), the settings value
    ([NotifySettingsValue]) and the per-peer tracker ([NotifySettings]),
    followed by the properties proved about them. *)

From Stdlib Require Import ZArith NArith List String Bool Lia.
Import ListNotations.

Local Open Scope Z_scope.

(** ** Primitive types *)

(** [QString]: only copying, comparison and [isEmpty] are used. *)
Definition QString := string.

Definition isEmpty (s : QString) : bool :=
  match s with
  | EmptyString => true
  | String _ _ => false
  end.

(** [DocumentId] is [uint64], and so is the payload of [MTPlong]: a ringtone
    id moves between the two without conversion. *)
Definition DocumentId := N.

(** [TimeId] and [int] are both 32-bit signed.  [int_add] is [+] on them,
    with the two's complement wrap-around of the supported targets written
    out (the language itself leaves signed overflow undefined). *)
Definition TimeId := Z.

Definition INT_MIN : Z := - 2 ^ 31.
Definition INT_MAX : Z := 2 ^ 31 - 1.

Definition in_int (x : Z) : Prop := INT_MIN <= x <= INT_MAX.

Definition int_wrap (x : Z) : Z := (x + 2 ^ 31) mod 2 ^ 32 - 2 ^ 31.

Definition int_add (a b : Z) : Z := int_wrap (a + b).

(** [std::optional<T>::operator==]. *)
Definition optional_eqb {A : Type} (eqb : A -> A -> bool)
    (a b : option A) : bool :=
  match a, b with
  | Some x, Some y => eqb x y
  | None, None => true
  | _, _ => false
  end.

Definition has_value {A : Type} (o : option A) : bool :=
  match o with
  | Some _ => true
  | None => false
  end.

(** ** Wire types *)

(** Modelled from the spec: the generated class [MTPNotificationSound] is not
    part of the sources; section 6 gives it as a closed four-way tag,
    default / none / local(title, data) / ringtone(id). *)
Inductive MTPNotificationSound : Type :=
| MTP_notificationSoundDefault
| MTP_notificationSoundNone
| MTP_notificationSoundLocal (vtitle vdata : QString)
| MTP_notificationSoundRingtone (vid : DocumentId).

(** Modelled from the spec: the value-initialised [MTPNotificationSound()]
    that [SerializeSound] returns for an absent sound; section 4.1 has
    "absent -> default-tag wire record". *)
Definition MTPNotificationSound_ : MTPNotificationSound :=
  MTP_notificationSoundDefault.

(** [MTPBool] carries a [bool] ([mtpIsTrue] reads it, [MTP_bool] builds it,
    [MTPBool()] is false); [MTPint] carries an [int] ([MTPint()] is 0). *)
Definition MTPBool := bool.
Definition MTPBool_ : MTPBool := false.
Definition mtpIsTrue (b : MTPBool) : bool := b.
Definition MTP_bool (b : bool) : MTPBool := b.

Definition MTPint := Z.
Definition MTPint_ : MTPint := 0.
Definition MTP_int (v : Z) : MTPint := v.

(** ** NotifySound *)

(** Modelled from the spec: [struct NotifySound] is declared in the header;
    its fields are the ones the designated initialisers and member accesses
    of this file name, each defaulting to empty / zero / false (section 3). *)
Record NotifySound : Type := mkNotifySound {
  title : QString;
  data : QString;
  id : DocumentId;
  none : bool
}.

(** [NotifySound()]. *)
Definition NotifySound_ : NotifySound :=
  {| title := EmptyString; data := EmptyString; id := 0%N; none := false |}.

(** Modelled from the spec: [operator==] on [NotifySound] comes from the
    header; section 3 has "equality compares all fields structurally". *)
Definition NotifySound_eqb (a b : NotifySound) : bool :=
  N.eqb (id a) (id b)
  && Bool.eqb (none a) (none b)
  && String.eqb (title a) (title b)
  && String.eqb (data a) (data b).

(** ** Sound codec *)

Definition ParseSound (sound : MTPNotificationSound) : NotifySound :=
  match sound with
  | MTP_notificationSoundDefault => NotifySound_
  | MTP_notificationSoundNone =>
      {| title := EmptyString; data := EmptyString; id := 0%N; none := true |}
  | MTP_notificationSoundLocal vtitle vdata =>
      {| title := vtitle; data := vdata; id := 0%N; none := false |}
  | MTP_notificationSoundRingtone vid =>
      {| title := EmptyString; data := EmptyString; id := vid; none := false |}
  end.

Definition SerializeSound (sound : option NotifySound)
    : MTPNotificationSound :=
  match sound with
  | None => MTPNotificationSound_
  | Some s =>
      if none s then MTP_notificationSoundNone
      else if negb (N.eqb (id s) 0) then MTP_notificationSoundRingtone (id s)
      else if negb (isEmpty (title s))
      then MTP_notificationSoundLocal (title s) (data s)
      else MTP_notificationSoundDefault
  end.

(** The four logical states of a [NotifySound] (section 3), each with the
    fields of the other states left empty. *)
Inductive SoundState : NotifySound -> Prop :=
| StateDefault : SoundState NotifySound_
| StateNone :
    SoundState
      {| title := EmptyString; data := EmptyString; id := 0%N; none := true |}
| StateLocal t d :
    isEmpty t = false ->
    SoundState {| title := t; data := d; id := 0%N; none := false |}
| StateRingtone i :
    i <> 0%N ->
    SoundState
      {| title := EmptyString; data := EmptyString; id := i; none := false |}.

(** ** The generated flag enumerations *)

(** The [Flag] enumerations of [MTPDpeerNotifySettings] and
    [MTPDinputPeerNotifySettings] are generated from the TL scheme and are
    not part of the sources.  Each enumerator is a single bit; a [Scheme]
    gives the bit positions, and everything below is parametric in it. *)
Class Scheme : Type := {
  peer_show_previews_bit : N;
  peer_silent_bit : N;
  peer_mute_until_bit : N;
  peer_other_sound_bit : N;
  input_show_previews_bit : N;
  input_silent_bit : N;
  input_mute_until_bit : N;
  input_sound_bit : N
}.

(** The enumerators of one [Flag] type are pairwise distinct. *)
Definition scheme_ok (S : Scheme) : Prop :=
  NoDup [peer_show_previews_bit; peer_silent_bit;
         peer_mute_until_bit; peer_other_sound_bit]
  /\ NoDup [input_show_previews_bit; input_silent_bit;
            input_mute_until_bit; input_sound_bit].

(** The positions the TL scheme assigns:
    [peerNotifySettings flags:# show_previews:flags.0?Bool
     silent:flags.1?Bool mute_until:flags.2?int
     ios_sound:flags.3? android_sound:flags.4? other_sound:flags.5?] and
    [inputPeerNotifySettings flags:# show_previews:flags.0?Bool
     silent:flags.1?Bool mute_until:flags.2?int sound:flags.3?]. *)
Definition tl_scheme : Scheme := {|
  peer_show_previews_bit := 0;
  peer_silent_bit := 1;
  peer_mute_until_bit := 2;
  peer_other_sound_bit := 5;
  input_show_previews_bit := 0;
  input_silent_bit := 1;
  input_mute_until_bit := 2;
  input_sound_bit := 3
|}.

(** [MTPflags<Flag>]: an unsigned bit mask. *)
Definition Flags := N.

(** [optional.has_value() ? flag : Flag(0)], also written
    [optional ? flag : Flag(0)]. *)
Definition flag {A : Type} (optional : option A) (f : Flags) : Flags :=
  if has_value optional then f else 0%N.

(** ** MTPDpeerNotifySettings: the remote settings record *)

Module MTPDpeerNotifySettings.

Record t : Type := MTP_peerNotifySettings {
  vflags : Flags;
  _vshow_previews : MTPBool;
  _vsilent : MTPBool;
  _vmute_until : MTPint;
  _vios_sound : MTPNotificationSound;
  _vandroid_sound : MTPNotificationSound;
  _vother_sound : MTPNotificationSound
}.

Section Flag.
Context {S : Scheme}.

Definition f_show_previews : Flags := N.shiftl 1 peer_show_previews_bit.
Definition f_silent : Flags := N.shiftl 1 peer_silent_bit.
Definition f_mute_until : Flags := N.shiftl 1 peer_mute_until_bit.
Definition f_other_sound : Flags := N.shiftl 1 peer_other_sound_bit.

(** Modelled from the spec: the generated accessors of the conditional
    fields; section 6 has "flags determine which optional fields are
    meaningful": a field is read only when its flag bit is set. *)
Definition conditional {A : Type} (d : t) (f : Flags) (v : A) : option A :=
  if N.eqb (N.land (vflags d) f) 0 then None else Some v.

Definition vshow_previews (d : t) : option MTPBool :=
  conditional d f_show_previews (_vshow_previews d).
Definition vsilent (d : t) : option MTPBool :=
  conditional d f_silent (_vsilent d).
Definition vmute_until (d : t) : option MTPint :=
  conditional d f_mute_until (_vmute_until d).
Definition vother_sound (d : t) : option MTPNotificationSound :=
  conditional d f_other_sound (_vother_sound d).

End Flag.
End MTPDpeerNotifySettings.

(** [MTPPeerNotifySettings] has the single constructor [peerNotifySettings],
    so [settings.type() == mtpc_peerNotifySettings] holds of every value and
    [c_peerNotifySettings()] is the identity. *)
Definition MTPPeerNotifySettings := MTPDpeerNotifySettings.t.

(** ** MTPinputPeerNotifySettings: the record pushed upstream *)

Module MTPDinputPeerNotifySettings.

Record t : Type := MTP_inputPeerNotifySettings {
  vflags : Flags;
  vshow_previews : MTPBool;
  vsilent : MTPBool;
  vmute_until : MTPint;
  vsound : MTPNotificationSound
}.

Section Flag.
Context {S : Scheme}.

Definition f_show_previews : Flags := N.shiftl 1 input_show_previews_bit.
Definition f_silent : Flags := N.shiftl 1 input_silent_bit.
Definition f_mute_until : Flags := N.shiftl 1 input_mute_until_bit.
Definition f_sound : Flags := N.shiftl 1 input_sound_bit.

End Flag.
End MTPDinputPeerNotifySettings.

Definition MTPinputPeerNotifySettings := MTPDinputPeerNotifySettings.t.

Definition DefaultSettings : MTPinputPeerNotifySettings :=
  MTPDinputPeerNotifySettings.MTP_inputPeerNotifySettings
    0%N
    MTPBool_
    MTPBool_
    MTPint_
    MTPNotificationSound_.

(** ** NotifySettingsValue *)

Module NotifySettingsValue.

Record t : Type := mk {
  _mute : option TimeId;
  _sound : option NotifySound;
  _silent : option bool;
  _showPreviews : option bool
}.

(** The members before the constructor body runs: four empty optionals. *)
Definition uninitialized : t :=
  {| _mute := None; _sound := None; _silent := None; _showPreviews := None |}.

(** The private four-field [change]. *)
Definition change (self : t)
    (mute : option Z)
    (sound : option NotifySound)
    (showPreviews : option bool)
    (silentPosts : option bool) : bool * t :=
  if optional_eqb Z.eqb (_mute self) mute
     && optional_eqb NotifySound_eqb (_sound self) sound
     && optional_eqb Bool.eqb (_showPreviews self) showPreviews
     && optional_eqb Bool.eqb (_silent self) silentPosts
  then (false, self)
  else (true,
        {| _mute := mute;
           _sound := sound;
           _silent := silentPosts;
           _showPreviews := showPreviews |}).

(** [change(std::optional<int> muteForSeconds,
            std::optional<bool> silentPosts)], with the reading of
    [base::unixtime::now()] passed in as [now]. *)
Definition change_local (self : t) (now : TimeId)
    (muteForSeconds : option Z) (silentPosts : option bool) : bool * t :=
  let notMuted :=
    match muteForSeconds with
    | Some m => Z.eqb m 0
    | None =>
        match _mute self with
        | None => true
        | Some u => Z.leb u now
        end
    end in
  let newMute :=
    match muteForSeconds with
    | Some m => Some (if Z.ltb 0 m then int_add now m else 0)
    | None => _mute self
    end in
  let newSilentPosts :=
    match silentPosts with
    | Some s => Some s
    | None => _silent self
    end in
  change self newMute (_sound self) (_showPreviews self) newSilentPosts.

Definition muteUntil (self : t) : option TimeId := _mute self.

Definition silentPosts (self : t) : option bool := _silent self.

Section WithScheme.
Context {S : Scheme}.

(** [change(const MTPDpeerNotifySettings &data)]. *)
Definition change_data (self : t) (data : MTPDpeerNotifySettings.t)
    : bool * t :=
  let mute := MTPDpeerNotifySettings.vmute_until data in
  let sound := MTPDpeerNotifySettings.vother_sound data in
  let showPreviews := MTPDpeerNotifySettings.vshow_previews data in
  let silent := MTPDpeerNotifySettings.vsilent data in
  change self
    mute
    (option_map ParseSound sound)
    (option_map mtpIsTrue showPreviews)
    (option_map mtpIsTrue silent).

(** The constructor [NotifySettingsValue(const MTPDpeerNotifySettings &)]. *)
Definition new (data : MTPDpeerNotifySettings.t) : t :=
  snd (change_data uninitialized data).

Definition serialize (self : t) : MTPinputPeerNotifySettings :=
  MTPDinputPeerNotifySettings.MTP_inputPeerNotifySettings
    (N.lor
       (N.lor
          (N.lor
             (flag (_mute self) MTPDinputPeerNotifySettings.f_mute_until)
             (flag (_sound self) MTPDinputPeerNotifySettings.f_sound))
          (flag (_silent self) MTPDinputPeerNotifySettings.f_silent))
       (flag (_showPreviews self)
          MTPDinputPeerNotifySettings.f_show_previews))
    (MTP_bool match _showPreviews self with Some b => b | None => true end)
    (MTP_bool match _silent self with Some b => b | None => false end)
    (MTP_int match _mute self with Some u => u | None => 0 end)
    (SerializeSound (_sound self)).

End WithScheme.
End NotifySettingsValue.

(** ** NotifySettings: the per-peer tracker *)

Module NotifySettings.

Record t : Type := mk {
  _known : bool;
  _value : option NotifySettingsValue.t
}.

(** Modelled from the spec: the member initialisers are in the header;
    section 3 has the tracker "constructed empty/unknown". *)
Definition new : t := {| _known := false; _value := None |}.

(** The state invariant: a tracker that holds a value is known. *)
Definition value_known (self : t) : Prop :=
  has_value (_value self) = true -> _known self = true.

Definition muteUntil (self : t) : option TimeId :=
  match _value self with
  | Some v => NotifySettingsValue.muteUntil v
  | None => None
  end.

Definition settingsUnknown (self : t) : bool := negb (_known self).

Definition silentPosts (self : t) : option bool :=
  match _value self with
  | Some v => NotifySettingsValue.silentPosts v
  | None => None
  end.

Section WithScheme.
Context {S : Scheme}.

(** [change(const MTPPeerNotifySettings &settings)]. *)
Definition change (self : t) (settings : MTPPeerNotifySettings) : bool * t :=
  let data := settings in
  let empty := N.eqb (MTPDpeerNotifySettings.vflags data) 0 in
  if empty then
    if negb (_known self) || has_value (_value self)
    then (true, {| _known := true; _value := None |})
    else (false, self)
  else
    match _value self with
    | Some v =>
        let '(changed, v') := NotifySettingsValue.change_data v data in
        (changed, {| _known := _known self; _value := Some v' |})
    | None =>
        (true, {| _known := true;
                  _value := Some (NotifySettingsValue.new data) |})
    end.

(** The record [change(std::optional<int>, std::optional<bool>)] builds
    when the tracker holds no value. *)
Definition local_record (now : TimeId)
    (muteForSeconds : option Z) (silentPosts : option bool)
    : MTPPeerNotifySettings :=
  let flags :=
    N.lor (flag muteForSeconds MTPDpeerNotifySettings.f_mute_until)
          (flag silentPosts MTPDpeerNotifySettings.f_silent) in
  let muteUntil :=
    match muteForSeconds with
    | Some m => int_add now m
    | None => 0
    end in
  MTPDpeerNotifySettings.MTP_peerNotifySettings
    flags
    MTPBool_
    match silentPosts with Some s => MTP_bool s | None => MTPBool_ end
    (MTP_int muteUntil)
    MTPNotificationSound_
    MTPNotificationSound_
    MTPNotificationSound_.

(** [change(std::optional<int> muteForSeconds,
            std::optional<bool> silentPosts)], with the reading of
    [base::unixtime::now()] passed in as [now]. *)
Definition change_local (self : t) (now : TimeId)
    (muteForSeconds : option Z) (silentPosts : option bool) : bool * t :=
  if negb (has_value muteForSeconds) && negb (has_value silentPosts)
  then (false, self)
  else
    match _value self with
    | Some v =>
        let '(changed, v') :=
          NotifySettingsValue.change_local v now muteForSeconds silentPosts in
        (changed, {| _known := _known self; _value := Some v' |})
    | None => change self (local_record now muteForSeconds silentPosts)
    end.

Definition serialize (self : t) : MTPinputPeerNotifySettings :=
  match _value self with
  | Some v => NotifySettingsValue.serialize v
  | None => DefaultSettings
  end.

(** The two entry points as calls, and a sequence of calls run in order. *)
Inductive Call : Type :=
| ApplyRemote (settings : MTPPeerNotifySettings)
| ApplyLocal (now : TimeId)
    (muteForSeconds : option Z) (silentPosts : option bool).

Definition call (self : t) (c : Call) : bool * t :=
  match c with
  | ApplyRemote settings => change self settings
  | ApplyLocal now muteForSeconds silentPosts =>
      change_local self now muteForSeconds silentPosts
  end.

Definition run (self : t) (cs : list Call) : t :=
  fold_left (fun s c => snd (call s c)) cs self.

(** A local call with both arguments omitted. *)
Definition is_noop (c : Call) : bool :=
  match c with
  | ApplyLocal _ None None => true
  | _ => false
  end.

Definition is_local (c : Call) : bool :=
  match c with
  | ApplyLocal _ _ _ => true
  | ApplyRemote _ => false
  end.

End WithScheme.
End NotifySettings.

(** Case analysis on the comparisons of bit positions, and on the presence
    of fields, in a goal. *)
Ltac eqb_cases :=
  repeat match goal with
         | |- context [N.eqb ?a ?b] =>
             destruct (N.eqb_spec a b); try congruence
         end.

Ltac bool_cases :=
  repeat match goal with
         | |- context [has_value ?o] => destruct (has_value o)
         end;
  reflexivity.

(** * Properties *)

(** ** Equality tests *)

Lemma NotifySound_eqb_eq (a b : NotifySound) :
  NotifySound_eqb a b = true <-> a = b.
Proof.
  unfold NotifySound_eqb. destruct a as [ta da ia na], b as [tb db ib nb].
  cbn [title data id none].
  rewrite !andb_true_iff, N.eqb_eq, Bool.eqb_true_iff, !String.eqb_eq.
  split.
  - intros [[[-> ->] ->] ->]. reflexivity.
  - intros H. injection H as -> -> -> ->. auto.
Qed.

Lemma bool_eqb_eq (a b : bool) : Bool.eqb a b = true <-> a = b.
Proof. apply Bool.eqb_true_iff. Qed.

Lemma optional_eqb_eq {A : Type} (eqb : A -> A -> bool) :
  (forall x y, eqb x y = true <-> x = y) ->
  forall a b, optional_eqb eqb a b = true <-> a = b.
Proof.
  intros Heqb [x|] [y|]; cbn; try (split; intros; congruence).
  rewrite Heqb. split; congruence.
Qed.

(** ** Sound codec *)

Lemma SerializeSound_ParseSound (w : MTPNotificationSound) :
  SerializeSound (Some (ParseSound w)) = w
  \/ (exists d, w = MTP_notificationSoundLocal EmptyString d)
  \/ w = MTP_notificationSoundRingtone 0%N.
Proof.
  destruct w as [| |t d|i]; cbn; auto.
  - destruct t; cbn; eauto.
  - destruct (N.eqb_spec i 0%N); subst; cbn; auto.
Qed.

Lemma SerializeSound_canonical (o : option NotifySound) :
  (forall d, SerializeSound o <> MTP_notificationSoundLocal EmptyString d)
  /\ SerializeSound o <> MTP_notificationSoundRingtone 0%N.
Proof.
  destruct o as [[t d i n]|]; cbn.
  - destruct n; [split; [intro|]; discriminate|].
    destruct (N.eqb_spec i 0%N) as [->|Hi]; cbn.
    + destruct t; cbn; (split; [intro|]; congruence).
    + split; [intro; discriminate|]. intros H. injection H as H. contradiction.
  - split; [intro|]; discriminate.
Qed.

(** C5.  Sound codec round trip.  A [NotifySound] in one of its four states
    (default with every field empty, none, local with a non-empty title,
    ringtone with a non-zero id) is returned unchanged by encoding and then
    decoding it, both as the same value and under [operator==]; and a wire
    sound that [SerializeSound] can produce is returned unchanged by decoding
    and then encoding it. *)
Theorem sound_round_trip (s : NotifySound) (w : MTPNotificationSound) :
  SoundState s ->
  (exists o, SerializeSound o = w) ->
  ParseSound (SerializeSound (Some s)) = s
  /\ NotifySound_eqb (ParseSound (SerializeSound (Some s))) s = true
  /\ SerializeSound (Some (ParseSound w)) = w.
Proof.
  intros Hs [o Ho].
  assert (Hps : ParseSound (SerializeSound (Some s)) = s).
  { destruct Hs as [| |t d Ht|i Hi]; cbn; try reflexivity.
    - rewrite Ht. reflexivity.
    - apply N.eqb_neq in Hi. rewrite Hi. reflexivity. }
  split; [exact Hps|]. split; [apply NotifySound_eqb_eq; exact Hps|].
  destruct (SerializeSound_canonical o) as [Hlocal Hring].
  rewrite Ho in Hlocal, Hring.
  destruct (SerializeSound_ParseSound w) as [H|[[d H]|H]].
  - exact H.
  - destruct (Hlocal d H).
  - destruct (Hring H).
Qed.

Lemma sound_round_trip_witness :
  let s :=
    {| title := EmptyString; data := EmptyString; id := 42%N; none := false |}
  in
  let w := MTP_notificationSoundRingtone 42%N in
  SoundState s
  /\ (exists o, SerializeSound o = w)
  /\ ParseSound (SerializeSound (Some s)) = s
  /\ NotifySound_eqb (ParseSound (SerializeSound (Some s))) s = true
  /\ SerializeSound (Some (ParseSound w)) = w.
Proof.
  intros s w.
  assert (Hs : SoundState s) by (apply StateRingtone; discriminate).
  assert (Hw : exists o, SerializeSound o = w) by (exists (Some s); reflexivity).
  split; [exact Hs|]. split; [exact Hw|].
  exact (sound_round_trip s w Hs Hw).
Defined.

(** C10.  Decoding the wire ringtone with id 0 gives the default
    [NotifySound] (the same value as decoding the default tag, and equal to
    it under [operator==]), so encoding the result gives the default tag and
    not ringtone(0); no [NotifySound], present or absent, encodes to
    ringtone(0). *)
Theorem ringtone_zero_is_default :
  ParseSound (MTP_notificationSoundRingtone 0%N) = NotifySound_
  /\ ParseSound (MTP_notificationSoundRingtone 0%N)
     = ParseSound MTP_notificationSoundDefault
  /\ NotifySound_eqb (ParseSound (MTP_notificationSoundRingtone 0%N))
       NotifySound_ = true
  /\ SerializeSound (Some (ParseSound (MTP_notificationSoundRingtone 0%N)))
     = MTP_notificationSoundDefault
  /\ SerializeSound (Some (ParseSound (MTP_notificationSoundRingtone 0%N)))
     <> MTP_notificationSoundRingtone 0%N
  /\ (forall o, SerializeSound o <> MTP_notificationSoundRingtone 0%N).
Proof.
  repeat split; try reflexivity; try discriminate.
  intros o. apply SerializeSound_canonical.
Qed.

(** ** Integers and flags *)

Lemma int_wrap_in_int (x : Z) : in_int x -> int_wrap x = x.
Proof.
  unfold in_int, INT_MIN, INT_MAX, int_wrap.
  change (2 ^ 31) with 2147483648. change (2 ^ 32) with 4294967296.
  intros H. rewrite Z.mod_small; lia.
Qed.

Lemma int_add_0_r (x : Z) : in_int x -> int_add x 0 = x.
Proof. intros H. unfold int_add. rewrite Z.add_0_r. apply int_wrap_in_int, H. Qed.

Lemma testbit_single (n m : N) :
  N.testbit (N.shiftl 1 n) m = N.eqb m n.
Proof.
  rewrite N.shiftl_1_l. destruct (N.eqb_spec m n) as [->|Hne].
  - apply N.pow2_bits_true.
  - apply N.pow2_bits_false. congruence.
Qed.

Lemma land_single (x n : N) :
  N.eqb (N.land x (N.shiftl 1 n)) 0 = negb (N.testbit x n).
Proof.
  destruct (N.testbit x n) eqn:Hx; cbn [negb].
  - apply N.eqb_neq. intros H.
    assert (H' : N.testbit (N.land x (N.shiftl 1 n)) n = false)
      by (rewrite H; apply N.bits_0).
    rewrite N.land_spec, testbit_single, N.eqb_refl, Hx in H'. discriminate.
  - apply N.eqb_eq, N.bits_inj. intros m.
    rewrite N.land_spec, testbit_single, N.bits_0.
    destruct (N.eqb_spec m n) as [->|_].
    + rewrite Hx. reflexivity.
    + apply andb_false_r.
Qed.

Lemma flag_bits {A : Type} (o : option A) (n m : N) :
  N.testbit (flag o (N.shiftl 1 n)) m = has_value o && N.eqb m n.
Proof.
  unfold flag. destruct (has_value o); cbn [andb].
  - apply testbit_single.
  - apply N.bits_0.
Qed.

Lemma bits_nonzero (x n : N) : N.testbit x n = true -> N.eqb x 0 = false.
Proof.
  intros H. apply N.eqb_neq. intros ->. rewrite N.bits_0 in H. discriminate.
Qed.

(** ** NotifySettingsValue *)

Module ValueFacts.
Import NotifySettingsValue.

(** Whatever it returns, the four-field [change] leaves exactly the four
    candidate values stored. *)
Lemma change_stores (self : t) mute sound showPreviews silentPosts :
  snd (change self mute sound showPreviews silentPosts)
  = {| _mute := mute; _sound := sound;
       _silent := silentPosts; _showPreviews := showPreviews |}.
Proof.
  unfold change.
  destruct (optional_eqb Z.eqb (_mute self) mute) eqn:Hm; [|reflexivity].
  destruct (optional_eqb NotifySound_eqb (_sound self) sound) eqn:Hs;
    [|reflexivity].
  destruct (optional_eqb Bool.eqb (_showPreviews self) showPreviews) eqn:Hp;
    [|reflexivity].
  destruct (optional_eqb Bool.eqb (_silent self) silentPosts) eqn:Hq;
    [|reflexivity].
  apply (optional_eqb_eq _ Z.eqb_eq) in Hm.
  apply (optional_eqb_eq _ NotifySound_eqb_eq) in Hs.
  apply (optional_eqb_eq _ bool_eqb_eq) in Hp, Hq.
  destruct self. cbn in *. congruence.
Qed.

(** It returns [false], and changes nothing, when the candidates are the
    stored values. *)
Lemma change_same (self : t) :
  change self (_mute self) (_sound self) (_showPreviews self) (_silent self)
  = (false, self).
Proof.
  unfold change.
  rewrite (proj2 (optional_eqb_eq _ Z.eqb_eq _ _) eq_refl).
  rewrite (proj2 (optional_eqb_eq _ NotifySound_eqb_eq _ _) eq_refl).
  rewrite !(proj2 (optional_eqb_eq _ bool_eqb_eq _ _) eq_refl).
  reflexivity.
Qed.

Lemma change_local_mute (self : t) now m silent :
  muteUntil (snd (change_local self now (Some m) silent))
  = Some (if Z.ltb 0 m then int_add now m else 0).
Proof. unfold change_local. rewrite change_stores. reflexivity. Qed.

Section WithScheme.
Context {S : Scheme}.

Lemma change_data_stores (self : t) (d : MTPDpeerNotifySettings.t) :
  snd (change_data self d)
  = {| _mute := MTPDpeerNotifySettings.vmute_until d;
       _sound := option_map ParseSound (MTPDpeerNotifySettings.vother_sound d);
       _silent := option_map mtpIsTrue (MTPDpeerNotifySettings.vsilent d);
       _showPreviews :=
         option_map mtpIsTrue (MTPDpeerNotifySettings.vshow_previews d) |}.
Proof. unfold change_data. apply change_stores. Qed.

Lemma change_data_twice (self : t) (d : MTPDpeerNotifySettings.t) :
  change_data (snd (change_data self d)) d = (false, snd (change_data self d)).
Proof.
  unfold change_data. cbv zeta. rewrite change_stores.
  match goal with |- change ?v _ _ _ _ = _ => exact (change_same v) end.
Qed.

End WithScheme.
End ValueFacts.

(** ** NotifySettings *)

Module TrackerFacts.
Import NotifySettings.

Section WithScheme.
Context {S : Scheme}.

Lemma change_empty (self : t) (settings : MTPPeerNotifySettings) :
  MTPDpeerNotifySettings.vflags settings = 0%N ->
  change self settings
  = (negb (_known self) || has_value (_value self),
     {| _known := true; _value := None |}).
Proof.
  intros H. unfold change. cbv zeta. rewrite H. cbn [N.eqb].
  destruct self as [[|] [v|]]; reflexivity.
Qed.

Lemma change_nonempty (self : t) (settings : MTPPeerNotifySettings) :
  MTPDpeerNotifySettings.vflags settings <> 0%N ->
  snd (change self settings)
  = {| _known := match _value self with
                 | Some _ => _known self
                 | None => true
                 end;
       _value := Some (NotifySettingsValue.new settings) |}.
Proof.
  intros H. apply N.eqb_neq in H. unfold change. cbv zeta. rewrite H.
  destruct (_value self) as [v|]; [|reflexivity].
  pose proof (ValueFacts.change_data_stores v settings) as Hv.
  destruct (NotifySettingsValue.change_data v settings) as [c v'].
  cbn in Hv. subst v'. cbn [snd]. unfold NotifySettingsValue.new.
  rewrite ValueFacts.change_data_stores. reflexivity.
Qed.

Lemma local_record_nonempty now muteForSeconds silentPosts :
  has_value muteForSeconds || has_value silentPosts = true ->
  MTPDpeerNotifySettings.vflags
    (local_record now muteForSeconds silentPosts) <> 0%N.
Proof.
  intros H. apply N.eqb_neq. cbn [local_record MTPDpeerNotifySettings.vflags].
  unfold MTPDpeerNotifySettings.f_mute_until, MTPDpeerNotifySettings.f_silent.
  destruct muteForSeconds as [m|].
  - apply (bits_nonzero _ peer_mute_until_bit).
    rewrite N.lor_spec, flag_bits, N.eqb_refl. reflexivity.
  - destruct silentPosts as [s|]; [|discriminate].
    apply (bits_nonzero _ peer_silent_bit).
    rewrite N.lor_spec, !flag_bits, N.eqb_refl. apply orb_true_r.
Qed.

Lemma local_record_mute now m silentPosts :
  MTPDpeerNotifySettings.vmute_until (local_record now (Some m) silentPosts)
  = Some (int_add now m).
Proof.
  unfold MTPDpeerNotifySettings.vmute_until, MTPDpeerNotifySettings.conditional.
  cbn [local_record MTPDpeerNotifySettings.vflags
       MTPDpeerNotifySettings._vmute_until].
  unfold MTPDpeerNotifySettings.f_mute_until, MTPDpeerNotifySettings.f_silent.
  rewrite land_single, N.lor_spec, flag_bits, N.eqb_refl. reflexivity.
Qed.

Lemma call_known (self : t) (c : Call) :
  value_known self ->
  _known (snd (call self c)) = _known self || negb (is_noop c)
  /\ value_known (snd (call self c)).
Proof.
  unfold value_known. intros Hinv.
  assert (Hremote : forall settings,
    _known (snd (change self settings)) = true).
  { intros settings.
    destruct (N.eq_dec (MTPDpeerNotifySettings.vflags settings) 0) as [H0|H0].
    - rewrite (change_empty _ _ H0). reflexivity.
    - rewrite (change_nonempty _ _ H0). cbn [_known].
      destruct (_value self); [apply Hinv|]; reflexivity. }
  destruct c as [settings|now m s]; cbn [call is_noop].
  - rewrite Hremote, orb_true_r. auto.
  - unfold change_local.
    destruct m as [m|], s as [s|]; cbn [has_value negb andb is_noop snd];
      try (destruct (_value self) as [v|] eqn:Hv;
           [ destruct (NotifySettingsValue.change_local v now _ _) as [c v'];
             cbn [snd _known _value has_value];
             rewrite (Hinv eq_refl); auto
           | rewrite Hremote, orb_true_r; auto ]).
    rewrite orb_false_r. auto.
Qed.

Lemma run_app (self : t) (cs cs' : list Call) :
  run self (cs ++ cs') = run (run self cs) cs'.
Proof. apply fold_left_app. Qed.

Lemma run_known (cs : list Call) (self : t) :
  value_known self ->
  _known (run self cs) = _known self || negb (forallb is_noop cs)
  /\ value_known (run self cs).
Proof.
  revert self. induction cs as [|c cs IH]; intros self Hinv.
  - cbn. rewrite orb_false_r. auto.
  - destruct (call_known self c Hinv) as [Hk Hinv'].
    destruct (IH _ Hinv') as [Hk' Hinv''].
    change (run self (c :: cs)) with (run (snd (call self c)) cs).
    split; [|exact Hinv''].
    rewrite Hk', Hk. cbn [forallb].
    destruct (_known self), (is_noop c), (forallb is_noop cs); reflexivity.
Qed.

Lemma new_value_known : value_known new.
Proof. unfold value_known. cbn. discriminate. Qed.

End WithScheme.
End TrackerFacts.

(** ** The tracker's entry points *)

Section Claims.
Context {S : Scheme}.
Import NotifySettings.

(** C1.  Empty-record collapse.  From every prior state, applying a remote
    record whose flags are all zero leaves [muteUntil()] and [silentPosts()]
    empty and [settingsUnknown()] false; the call returns true if the tracker
    was unknown or held a value, and false if it was already known and
    empty. *)
Theorem empty_record_collapse
    (self : NotifySettings.t) (settings : MTPPeerNotifySettings) :
  MTPDpeerNotifySettings.vflags settings = 0%N ->
  let changed := fst (change self settings) in
  let self' := snd (change self settings) in
  muteUntil self' = None
  /\ silentPosts self' = None
  /\ settingsUnknown self' = false
  /\ (settingsUnknown self = true \/ _value self <> None -> changed = true)
  /\ (settingsUnknown self = false /\ _value self = None -> changed = false).
Proof.
  intros H changed self'. subst changed self'.
  rewrite (TrackerFacts.change_empty _ _ H). cbn [fst snd].
  repeat split.
  - unfold settingsUnknown. intros [Hu|Hv].
    + rewrite Hu. reflexivity.
    + destruct (_value self); [apply orb_true_r|contradiction].
  - unfold settingsUnknown. intros [Hu ->]. rewrite Hu. reflexivity.
Qed.

(** C4.  Idempotence of remote application.  Applying the same non-empty
    remote record a second time returns false and leaves the tracker, and so
    [muteUntil()], [silentPosts()], [settingsUnknown()] and [serialize()],
    as the first application left them. *)
Theorem remote_idempotent
    (self : NotifySettings.t) (settings : MTPPeerNotifySettings) :
  MTPDpeerNotifySettings.vflags settings <> 0%N ->
  let once := snd (change self settings) in
  let twice := snd (change once settings) in
  fst (change once settings) = false
  /\ twice = once
  /\ muteUntil twice = muteUntil once
  /\ silentPosts twice = silentPosts once
  /\ settingsUnknown twice = settingsUnknown once
  /\ serialize twice = serialize once.
Proof.
  intros H once twice.
  assert (Hc : change once settings = (false, once)).
  { subst once. rewrite (TrackerFacts.change_nonempty _ _ H).
    unfold change at 1. cbv zeta.
    apply N.eqb_neq in H. rewrite H. cbn [_value _known].
    unfold NotifySettingsValue.new.
    rewrite ValueFacts.change_data_twice. reflexivity. }
  subst twice. rewrite Hc. cbn [fst snd]. repeat split.
Qed.

(** C7.  Local override absoluteness.  On a tracker whose value holds a
    mute-until timestamp strictly after the current time, a local change
    with [muteForSeconds = 0], whatever its [silentPosts] argument, leaves
    [muteUntil()] at 0; with the clock at or after the epoch this is not the
    timestamp held before. *)
Theorem local_unmute_overrides_future_mute
    (self : NotifySettings.t) (v : NotifySettingsValue.t)
    (now until : TimeId) (silent : option bool) :
  _value self = Some v ->
  NotifySettingsValue._mute v = Some until ->
  now < until ->
  muteUntil (snd (change_local self now (Some 0) silent)) = Some 0
  /\ (0 <= now ->
      muteUntil (snd (change_local self now (Some 0) silent)) <> Some until).
Proof.
  intros Hv _ Hlt.
  assert (Hm : muteUntil (snd (change_local self now (Some 0) silent))
               = Some 0).
  { unfold change_local. cbn [has_value negb andb]. rewrite Hv.
    pose proof (ValueFacts.change_local_mute v now 0 silent) as Hm.
    destruct (NotifySettingsValue.change_local v now (Some 0) silent)
      as [c v'].
    exact Hm. }
  split; [exact Hm|]. rewrite Hm. intros Hnow Heq. injection Heq as Heq. lia.
Qed.

(** C9.  The local path on a tracker without a value.  With
    [muteForSeconds] present the record built for it carries
    [now + muteForSeconds] as mute-until, also for [muteForSeconds = 0]: the
    tracker then has [muteUntil()] at the current time, while the same call
    on a tracker that holds a value leaves it at 0. *)
Theorem local_unmute_without_value
    (self : NotifySettings.t) (now : TimeId) (silent : option bool) :
  in_int now ->
  (forall m,
     MTPDpeerNotifySettings.vmute_until (local_record now (Some m) silent)
     = Some (int_add now m))
  /\ (_value self = None ->
      muteUntil (snd (change_local self now (Some 0) silent)) = Some now)
  /\ (forall v, _value self = Some v ->
      muteUntil (snd (change_local self now (Some 0) silent)) = Some 0).
Proof.
  intros Hnow. split; [|split].
  - intros m. apply TrackerFacts.local_record_mute.
  - intros Hv. unfold change_local. cbn [has_value negb andb]. rewrite Hv.
    rewrite TrackerFacts.change_nonempty
      by (apply TrackerFacts.local_record_nonempty; reflexivity).
    unfold muteUntil, NotifySettingsValue.new. cbn [_value].
    rewrite ValueFacts.change_data_stores.
    cbn [NotifySettingsValue.muteUntil NotifySettingsValue._mute].
    rewrite TrackerFacts.local_record_mute, int_add_0_r by exact Hnow.
    reflexivity.
  - intros v Hv. unfold change_local. cbn [has_value negb andb]. rewrite Hv.
    pose proof (ValueFacts.change_local_mute v now 0 silent) as Hm.
    destruct (NotifySettingsValue.change_local v now (Some 0) silent)
      as [c v'].
    exact Hm.
Qed.

(** C6.  Serialization.  Without a value the tracker serializes to
    [DefaultSettings()], whose flags are all clear.  With a value, the flags
    have the bit of a field set exactly when the field is present, whatever
    it holds, and no other bit; an absent show-previews is emitted as true,
    an absent silent as false, an absent mute-until as 0 and an absent sound
    as the default tag. *)
Theorem serialize_flags_and_defaults (self : NotifySettings.t) :
  scheme_ok S ->
  (_value self = None ->
   serialize self = DefaultSettings
   /\ MTPDinputPeerNotifySettings.vflags (serialize self) = 0%N)
  /\ (forall v, _value self = Some v ->
      let r := serialize self in
      let flags := MTPDinputPeerNotifySettings.vflags r in
      N.testbit flags input_mute_until_bit
      = has_value (NotifySettingsValue._mute v)
      /\ N.testbit flags input_sound_bit
         = has_value (NotifySettingsValue._sound v)
      /\ N.testbit flags input_silent_bit
         = has_value (NotifySettingsValue._silent v)
      /\ N.testbit flags input_show_previews_bit
         = has_value (NotifySettingsValue._showPreviews v)
      /\ (forall n,
            ~ In n [input_mute_until_bit; input_sound_bit;
                    input_silent_bit; input_show_previews_bit] ->
            N.testbit flags n = false)
      /\ (NotifySettingsValue._showPreviews v = None ->
          MTPDinputPeerNotifySettings.vshow_previews r = true)
      /\ (NotifySettingsValue._silent v = None ->
          MTPDinputPeerNotifySettings.vsilent r = false)
      /\ (NotifySettingsValue._mute v = None ->
          MTPDinputPeerNotifySettings.vmute_until r = 0)
      /\ (NotifySettingsValue._sound v = None ->
          MTPDinputPeerNotifySettings.vsound r
          = MTP_notificationSoundDefault)).
Proof.
  intros [_ Hnodup]. split.
  - intros Hv. unfold serialize. rewrite Hv. split; reflexivity.
  - intros v Hv r flags.
    assert (Hbits : forall n,
      N.testbit flags n
      = has_value (NotifySettingsValue._mute v)
          && N.eqb n input_mute_until_bit
        || has_value (NotifySettingsValue._sound v)
             && N.eqb n input_sound_bit
        || has_value (NotifySettingsValue._silent v)
             && N.eqb n input_silent_bit
        || has_value (NotifySettingsValue._showPreviews v)
             && N.eqb n input_show_previews_bit).
    { intros n. subst flags r. unfold serialize. rewrite Hv.
      cbn [NotifySettingsValue.serialize MTPDinputPeerNotifySettings.vflags].
      unfold MTPDinputPeerNotifySettings.f_mute_until,
        MTPDinputPeerNotifySettings.f_sound,
        MTPDinputPeerNotifySettings.f_silent,
        MTPDinputPeerNotifySettings.f_show_previews.
      rewrite !N.lor_spec, !flag_bits. reflexivity. }
    inversion Hnodup as [|? ? Hp Hnodup1]; subst.
    inversion Hnodup1 as [|? ? Hs Hnodup2]; subst.
    inversion Hnodup2 as [|? ? Hm _]; subst.
    cbn [In] in Hp, Hs, Hm.
    assert (Hps : input_show_previews_bit <> input_silent_bit) by intuition congruence.
    assert (Hpm : input_show_previews_bit <> input_mute_until_bit) by intuition congruence.
    assert (Hpo : input_show_previews_bit <> input_sound_bit) by intuition congruence.
    assert (Hsm : input_silent_bit <> input_mute_until_bit) by intuition congruence.
    assert (Hso : input_silent_bit <> input_sound_bit) by intuition congruence.
    assert (Hmo : input_mute_until_bit <> input_sound_bit) by intuition congruence.
    clear Hp Hs Hm Hnodup Hnodup1 Hnodup2.
    repeat split.
    + rewrite Hbits. eqb_cases. bool_cases.
    + rewrite Hbits. eqb_cases. bool_cases.
    + rewrite Hbits. eqb_cases. bool_cases.
    + rewrite Hbits. eqb_cases. bool_cases.
    + intros n Hn. cbn [In] in Hn. rewrite Hbits.
      eqb_cases; try solve [exfalso; intuition congruence]. bool_cases.
    + intros H. subst r. unfold serialize. rewrite Hv. cbn. rewrite H.
      reflexivity.
    + intros H. subst r. unfold serialize. rewrite Hv. cbn. rewrite H.
      reflexivity.
    + intros H. subst r. unfold serialize. rewrite Hv. cbn. rewrite H.
      reflexivity.
    + intros H. subst r. unfold serialize. rewrite Hv. cbn. rewrite H.
      reflexivity.
Qed.

(** C3, as amended.  [settingsUnknown()] is true of a freshly constructed
    tracker, and after a sequence of calls it is still true exactly when every
    call was a local change with both arguments omitted: the first remote
    change of any kind, and also the first local change with an argument
    present, makes it false, and no later call makes it true again. *)
Theorem unknown_until_first_effective_call (cs cs' : list Call) :
  settingsUnknown new = true
  /\ settingsUnknown (run new cs) = forallb is_noop cs
  /\ settingsUnknown (run new (cs ++ cs'))
     = settingsUnknown (run new cs) && forallb is_noop cs'.
Proof.
  split; [reflexivity|].
  destruct (TrackerFacts.run_known cs new TrackerFacts.new_value_known)
    as [Hk Hinv].
  destruct (TrackerFacts.run_known cs' (run new cs) Hinv) as [Hk' _].
  unfold settingsUnknown. rewrite TrackerFacts.run_app, Hk', Hk.
  cbn [_known new orb]. rewrite negb_orb, !negb_involutive. auto.
Qed.

(** C8.  The state invariant.  A tracker that holds a value is known: this
    holds of the fresh tracker, every call preserves it, and so it holds
    after every sequence of calls.  A tracker reached this way for which
    [settingsUnknown()] is true therefore holds no value, has [muteUntil()]
    and [silentPosts()] empty and serializes to [DefaultSettings()]. *)
Theorem value_implies_known (cs : list Call) :
  value_known new
  /\ (forall self c, value_known self -> value_known (snd (call self c)))
  /\ value_known (run new cs)
  /\ (settingsUnknown (run new cs) = true ->
      _value (run new cs) = None
      /\ muteUntil (run new cs) = None
      /\ silentPosts (run new cs) = None
      /\ serialize (run new cs) = DefaultSettings).
Proof.
  destruct (TrackerFacts.run_known cs new TrackerFacts.new_value_known)
    as [_ Hinv].
  split; [apply TrackerFacts.new_value_known|].
  split; [intros self c H; apply TrackerFacts.call_known, H|].
  split; [exact Hinv|].
  unfold settingsUnknown, value_known in *. intros Hu.
  assert (Hv : _value (run new cs) = None).
  { destruct (_value (run new cs)); [|reflexivity].
    rewrite (Hinv eq_refl) in Hu. discriminate. }
  unfold muteUntil, silentPosts, serialize. rewrite Hv. auto.
Qed.

End Claims.

(** ** Instances at the TL scheme *)

Lemma tl_scheme_ok : scheme_ok tl_scheme.
Proof.
  split; repeat constructor; cbn; intuition discriminate.
Qed.

Lemma empty_record_collapse_witness :
  let self :=
    {| NotifySettings._known := true;
       NotifySettings._value :=
         Some {| NotifySettingsValue._mute := Some 1700003600;
                 NotifySettingsValue._sound := None;
                 NotifySettingsValue._silent := Some true;
                 NotifySettingsValue._showPreviews := None |} |} in
  let settings :=
    MTPDpeerNotifySettings.MTP_peerNotifySettings 0%N false false 0
      MTP_notificationSoundDefault MTP_notificationSoundDefault
      MTP_notificationSoundDefault in
  let self' := snd (NotifySettings.change (S := tl_scheme) self settings) in
  MTPDpeerNotifySettings.vflags settings = 0%N
  /\ NotifySettings.muteUntil self' = None
  /\ NotifySettings.silentPosts self' = None
  /\ NotifySettings.settingsUnknown self' = false
  /\ fst (NotifySettings.change (S := tl_scheme) self settings) = true.
Proof.
  intros self settings self'.
  destruct (@empty_record_collapse tl_scheme self settings eq_refl)
    as (Hm & Hs & Hu & Ht & _).
  split; [reflexivity|]. split; [exact Hm|]. split; [exact Hs|].
  split; [exact Hu|]. apply Ht. right. discriminate.
Defined.

Lemma remote_idempotent_witness :
  let settings :=
    MTPDpeerNotifySettings.MTP_peerNotifySettings 36%N false false 1700003600
      MTP_notificationSoundDefault MTP_notificationSoundDefault
      (MTP_notificationSoundRingtone 42%N) in
  let once :=
    snd (NotifySettings.change (S := tl_scheme) NotifySettings.new settings) in
  MTPDpeerNotifySettings.vflags settings <> 0%N
  /\ fst (NotifySettings.change (S := tl_scheme) once settings) = false
  /\ snd (NotifySettings.change (S := tl_scheme) once settings) = once.
Proof.
  intros settings once.
  assert (H : MTPDpeerNotifySettings.vflags settings <> 0%N) by discriminate.
  destruct (@remote_idempotent tl_scheme NotifySettings.new settings H)
    as (Hf & Hs & _).
  split; [exact H|]. split; [exact Hf|exact Hs].
Defined.

Lemma local_unmute_overrides_future_mute_witness :
  let v :=
    {| NotifySettingsValue._mute := Some 1700003600;
       NotifySettingsValue._sound := None;
       NotifySettingsValue._silent := None;
       NotifySettingsValue._showPreviews := None |} in
  let self :=
    {| NotifySettings._known := true; NotifySettings._value := Some v |} in
  1700000000 < 1700003600
  /\ NotifySettings.muteUntil
       (snd (NotifySettings.change_local (S := tl_scheme) self 1700000000
               (Some 0) (Some true)))
     = Some 0.
Proof.
  intros v self.
  assert (Hlt : 1700000000 < 1700003600) by lia.
  split; [exact Hlt|].
  exact (proj1 (@local_unmute_overrides_future_mute tl_scheme self v
                  1700000000 1700003600 (Some true) eq_refl eq_refl Hlt)).
Defined.

Lemma local_unmute_without_value_witness :
  in_int 1700000000
  /\ NotifySettings.muteUntil
       (snd (NotifySettings.change_local (S := tl_scheme) NotifySettings.new
               1700000000 (Some 0) None))
     = Some 1700000000.
Proof.
  assert (Hnow : in_int 1700000000)
    by (unfold in_int, INT_MIN, INT_MAX; lia).
  split; [exact Hnow|].
  destruct (@local_unmute_without_value tl_scheme NotifySettings.new
              1700000000 None Hnow) as (_ & Hnone & _).
  exact (Hnone eq_refl).
Defined.

Lemma serialize_flags_and_defaults_witness :
  let v :=
    {| NotifySettingsValue._mute := None;
       NotifySettingsValue._sound :=
         Some {| title := EmptyString; data := EmptyString;
                 id := 42%N; none := false |};
       NotifySettingsValue._silent := None;
       NotifySettingsValue._showPreviews := None |} in
  let self :=
    {| NotifySettings._known := true; NotifySettings._value := Some v |} in
  let r := NotifySettings.serialize (S := tl_scheme) self in
  scheme_ok tl_scheme
  /\ N.testbit (MTPDinputPeerNotifySettings.vflags r) 3 = true
  /\ N.testbit (MTPDinputPeerNotifySettings.vflags r) 2 = false
  /\ MTPDinputPeerNotifySettings.vmute_until r = 0
  /\ MTPDinputPeerNotifySettings.vshow_previews r = true.
Proof.
  intros v self r.
  destruct (@serialize_flags_and_defaults tl_scheme self tl_scheme_ok)
    as [_ H].
  destruct (H v eq_refl) as (Hm & Hs & _ & _ & _ & Hp & _ & Hmu & _).
  split; [exact tl_scheme_ok|]. split; [exact Hs|]. split; [exact Hm|].
  split; [exact (Hmu eq_refl)|exact (Hp eq_refl)].
Defined.

Lemma value_implies_known_witness :
  let held :=
    NotifySettings.run (S := tl_scheme) NotifySettings.new
      [NotifySettings.ApplyLocal 1700000000 (Some 3600) None] in
  let idle :=
    NotifySettings.run (S := tl_scheme) NotifySettings.new
      [NotifySettings.ApplyLocal 1700000000 None None] in
  has_value (NotifySettings._value held) = true
  /\ NotifySettings._known held = true
  /\ NotifySettings.settingsUnknown idle = true
  /\ NotifySettings._value idle = None
  /\ NotifySettings.serialize (S := tl_scheme) idle = DefaultSettings.
Proof.
  intros held idle.
  destruct (@value_implies_known tl_scheme
              [NotifySettings.ApplyLocal 1700000000 (Some 3600) None])
    as (_ & _ & Hheld & _).
  destruct (@value_implies_known tl_scheme
              [NotifySettings.ApplyLocal 1700000000 None None])
    as (_ & _ & _ & Hidle).
  destruct (Hidle eq_refl) as (Hv & _ & _ & Hser).
  split; [reflexivity|]. split; [exact (Hheld eq_refl)|].
  split; [reflexivity|]. split; [exact Hv|exact Hser].
Defined.

(** C3, as stated, fails: one local change with an argument present, on a
    fresh tracker, already makes [settingsUnknown()] false, with no remote
    record applied. *)
Lemma local_change_clears_unknown :
  let cs := [NotifySettings.ApplyLocal 1700000000 (Some 3600) None] in
  forallb NotifySettings.is_local cs = true
  /\ NotifySettings.settingsUnknown
       (NotifySettings.run (S := tl_scheme) NotifySettings.new cs)
     = false.
Proof. split; reflexivity. Qed.

(** C2 at its failing input.  On a tracker without a value a local change
    with [muteForSeconds = 0] stores the current time, not 0, while the
    same call on the tracker it has just produced stores 0. *)
Theorem local_unmute_on_fresh_tracker_stores_now :
  let fresh_call :=
    NotifySettings.change_local (S := tl_scheme) NotifySettings.new
      1700000000 (Some 0) None in
  NotifySettings.muteUntil (snd fresh_call) = Some 1700000000
  /\ NotifySettings.muteUntil (snd fresh_call) <> Some 0
  /\ NotifySettings.muteUntil
       (snd (NotifySettings.change_local (S := tl_scheme) (snd fresh_call)
               1700000000 (Some 0) None))
     = Some 0.
Proof. repeat split. discriminate. Qed.

(** For a positive [muteForSeconds] the two local paths agree: with or
    without a value, [now + muteForSeconds] is stored. *)
Lemma local_mute_positive {S : Scheme}
    (self : NotifySettings.t) (now m : Z) (silent : option bool) :
  0 < m ->
  NotifySettings.muteUntil
    (snd (NotifySettings.change_local self now (Some m) silent))
  = Some (int_add now m).
Proof.
  intros Hm. apply Z.ltb_lt in Hm.
  unfold NotifySettings.change_local. cbn [has_value negb andb].
  destruct (NotifySettings._value self) as [v|] eqn:Hv.
  - pose proof (ValueFacts.change_local_mute v now m silent) as H.
    rewrite Hm in H.
    destruct (NotifySettingsValue.change_local v now (Some m) silent)
      as [c v'].
    exact H.
  - rewrite TrackerFacts.change_nonempty
      by (apply TrackerFacts.local_record_nonempty; reflexivity).
    unfold NotifySettings.muteUntil, NotifySettingsValue.new.
    cbn [NotifySettings._value].
    rewrite ValueFacts.change_data_stores.
    cbn [NotifySettingsValue.muteUntil NotifySettingsValue._mute].
    apply TrackerFacts.local_record_mute.
Qed.

(** ** Sample runs at the TL scheme *)

(** A fresh tracker, an empty remote record, then the same local mute twice
    at one clock reading and once more a second later. *)
Example scenario_local_mute :
  let empty :=
    MTPDpeerNotifySettings.MTP_peerNotifySettings 0%N false false 0
      MTP_notificationSoundDefault MTP_notificationSoundDefault
      MTP_notificationSoundDefault in
  let s1 :=
    snd (NotifySettings.change (S := tl_scheme) NotifySettings.new empty) in
  let c2 :=
    NotifySettings.change_local (S := tl_scheme) s1 1700000000
      (Some 3600) None in
  let c3 :=
    NotifySettings.change_local (S := tl_scheme) (snd c2) 1700000000
      (Some 3600) None in
  let c4 :=
    NotifySettings.change_local (S := tl_scheme) (snd c3) 1700000001
      (Some 3600) None in
  NotifySettings.settingsUnknown s1 = false
  /\ NotifySettings.muteUntil s1 = None
  /\ c2 = (true, snd c2)
  /\ NotifySettings.muteUntil (snd c2) = Some 1700003600
  /\ c3 = (false, snd c2)
  /\ fst c4 = true
  /\ NotifySettings.muteUntil (snd c4) = Some 1700003601.
Proof. repeat split. Qed.

(** A remote record that carries only the other-sound slot, ringtone 42. *)
Example scenario_ringtone :
  let settings :=
    MTPDpeerNotifySettings.MTP_peerNotifySettings 32%N false false 0
      MTP_notificationSoundDefault MTP_notificationSoundDefault
      (MTP_notificationSoundRingtone 42%N) in
  let s :=
    snd (NotifySettings.change (S := tl_scheme) NotifySettings.new settings) in
  NotifySettings.serialize (S := tl_scheme) s
  = MTPDinputPeerNotifySettings.MTP_inputPeerNotifySettings 8%N true false 0
      (MTP_notificationSoundRingtone 42%N).
Proof. reflexivity. Qed.

(** A sound outside the four states, none together with an id, is not
    returned by encoding and decoding it. *)
Example sound_outside_states :
  let s :=
    {| title := EmptyString; data := EmptyString; id := 7%N; none := true |}
  in
  ParseSound (SerializeSound (Some s)) <> s.
Proof. discriminate. Qed.

(** * Further properties of the code *)

(** ** Shared facts *)

Lemma conditional_testbit {S : Scheme} {A : Type}
    (d : MTPDpeerNotifySettings.t) (n : N) (v : A) :
  MTPDpeerNotifySettings.conditional d (N.shiftl 1 n) v
  = if N.testbit (MTPDpeerNotifySettings.vflags d) n then Some v else None.
Proof.
  unfold MTPDpeerNotifySettings.conditional. rewrite land_single.
  destruct (N.testbit (MTPDpeerNotifySettings.vflags d) n); reflexivity.
Qed.

(** The value a non-empty record leaves stored, field by field. *)
Lemma new_fields {S : Scheme} (d : MTPDpeerNotifySettings.t) :
  NotifySettingsValue.new d
  = {| NotifySettingsValue._mute :=
         if N.testbit (MTPDpeerNotifySettings.vflags d) peer_mute_until_bit
         then Some (MTPDpeerNotifySettings._vmute_until d) else None;
       NotifySettingsValue._sound :=
         if N.testbit (MTPDpeerNotifySettings.vflags d) peer_other_sound_bit
         then Some (ParseSound (MTPDpeerNotifySettings._vother_sound d))
         else None;
       NotifySettingsValue._silent :=
         if N.testbit (MTPDpeerNotifySettings.vflags d) peer_silent_bit
         then Some (mtpIsTrue (MTPDpeerNotifySettings._vsilent d)) else None;
       NotifySettingsValue._showPreviews :=
         if N.testbit (MTPDpeerNotifySettings.vflags d) peer_show_previews_bit
         then Some (mtpIsTrue (MTPDpeerNotifySettings._vshow_previews d))
         else None |}.
Proof.
  unfold NotifySettingsValue.new. rewrite ValueFacts.change_data_stores.
  unfold MTPDpeerNotifySettings.vmute_until,
    MTPDpeerNotifySettings.vother_sound, MTPDpeerNotifySettings.vsilent,
    MTPDpeerNotifySettings.vshow_previews,
    MTPDpeerNotifySettings.f_mute_until, MTPDpeerNotifySettings.f_other_sound,
    MTPDpeerNotifySettings.f_silent, MTPDpeerNotifySettings.f_show_previews.
  rewrite !conditional_testbit.
  repeat match goal with
         | |- context [N.testbit ?x ?n] => destruct (N.testbit x n)
         end; reflexivity.
Qed.

(** The four-field [change] reports a change exactly when it makes one. *)
Lemma value_change_reports (self : NotifySettingsValue.t)
    mute sound showPreviews silentPosts :
  fst (NotifySettingsValue.change self mute sound showPreviews silentPosts)
  = false
  <-> snd (NotifySettingsValue.change self mute sound showPreviews silentPosts)
      = self.
Proof.
  rewrite ValueFacts.change_stores. unfold NotifySettingsValue.change.
  destruct (optional_eqb Z.eqb (NotifySettingsValue._mute self) mute) eqn:Hm;
  destruct (optional_eqb NotifySound_eqb
              (NotifySettingsValue._sound self) sound) eqn:Hs;
  destruct (optional_eqb Bool.eqb
              (NotifySettingsValue._showPreviews self) showPreviews) eqn:Hp;
  destruct (optional_eqb Bool.eqb
              (NotifySettingsValue._silent self) silentPosts) eqn:Hq;
  cbn [andb fst].
  1: { apply (optional_eqb_eq _ Z.eqb_eq) in Hm.
       apply (optional_eqb_eq _ NotifySound_eqb_eq) in Hs.
       apply (optional_eqb_eq _ bool_eqb_eq) in Hp, Hq.
       destruct self. cbn in *. subst. tauto. }
  all: split; [discriminate|]; intros H; rewrite <- H in Hm, Hs, Hp, Hq;
    cbn in Hm, Hs, Hp, Hq.
  all: try (rewrite (proj2 (optional_eqb_eq _ bool_eqb_eq _ _) eq_refl) in Hq;
            discriminate).
  all: try (rewrite (proj2 (optional_eqb_eq _ bool_eqb_eq _ _) eq_refl) in Hp;
            discriminate).
  all: try (rewrite (proj2 (optional_eqb_eq _ NotifySound_eqb_eq _ _) eq_refl)
              in Hs; discriminate).
  all: rewrite (proj2 (optional_eqb_eq _ Z.eqb_eq _ _) eq_refl) in Hm;
    discriminate.
Qed.

Lemma local_record_silent {S : Scheme} now muteForSeconds b :
  MTPDpeerNotifySettings.vsilent
    (NotifySettings.local_record now muteForSeconds (Some b))
  = Some b.
Proof.
  unfold MTPDpeerNotifySettings.vsilent, MTPDpeerNotifySettings.f_silent.
  rewrite conditional_testbit.
  cbn [NotifySettings.local_record MTPDpeerNotifySettings.vflags
       MTPDpeerNotifySettings._vsilent].
  unfold MTPDpeerNotifySettings.f_mute_until, MTPDpeerNotifySettings.f_silent.
  rewrite N.lor_spec, !flag_bits, N.eqb_refl, orb_true_r. reflexivity.
Qed.

(** The bits of the flags [NotifySettingsValue::serialize] emits. *)
Lemma serialize_bits {S : Scheme} (v : NotifySettingsValue.t) (n : N) :
  N.testbit (MTPDinputPeerNotifySettings.vflags
               (NotifySettingsValue.serialize v)) n
  = has_value (NotifySettingsValue._mute v) && N.eqb n input_mute_until_bit
    || has_value (NotifySettingsValue._sound v) && N.eqb n input_sound_bit
    || has_value (NotifySettingsValue._silent v) && N.eqb n input_silent_bit
    || has_value (NotifySettingsValue._showPreviews v)
       && N.eqb n input_show_previews_bit.
Proof.
  cbn [NotifySettingsValue.serialize MTPDinputPeerNotifySettings.vflags].
  unfold MTPDinputPeerNotifySettings.f_mute_until,
    MTPDinputPeerNotifySettings.f_sound,
    MTPDinputPeerNotifySettings.f_silent,
    MTPDinputPeerNotifySettings.f_show_previews.
  rewrite !N.lor_spec, !flag_bits. reflexivity.
Qed.

Lemma input_bits_distinct {S : Scheme} :
  scheme_ok S ->
  input_show_previews_bit <> input_silent_bit
  /\ input_show_previews_bit <> input_mute_until_bit
  /\ input_show_previews_bit <> input_sound_bit
  /\ input_silent_bit <> input_mute_until_bit
  /\ input_silent_bit <> input_sound_bit
  /\ input_mute_until_bit <> input_sound_bit.
Proof.
  intros [_ H].
  inversion H as [|? ? Hp H1]; subst.
  inversion H1 as [|? ? Hs H2]; subst.
  inversion H2 as [|? ? Hm _]; subst.
  cbn [In] in Hp, Hs, Hm. intuition congruence.
Qed.

Lemma peer_bits_distinct {S : Scheme} :
  scheme_ok S ->
  peer_show_previews_bit <> peer_silent_bit
  /\ peer_show_previews_bit <> peer_mute_until_bit
  /\ peer_show_previews_bit <> peer_other_sound_bit
  /\ peer_silent_bit <> peer_mute_until_bit
  /\ peer_silent_bit <> peer_other_sound_bit
  /\ peer_mute_until_bit <> peer_other_sound_bit.
Proof.
  intros [H _].
  inversion H as [|? ? Hp H1]; subst.
  inversion H1 as [|? ? Hs H2]; subst.
  inversion H2 as [|? ? Hm _]; subst.
  cbn [In] in Hp, Hs, Hm. intuition congruence.
Qed.

(** ** Remote records *)

Section Extras.
Context {S : Scheme}.
Import NotifySettings.

(** X1.  A non-empty remote record replaces the stored fields, it is not
    merged into them: whatever the tracker held, afterwards each of the four
    fields is the record's when the record's flag bit for it is set and is
    empty when the bit is clear; the mute-until timestamp is stored as
    received. *)
Theorem remote_replaces_fields
    (self : NotifySettings.t) (settings : MTPPeerNotifySettings) :
  MTPDpeerNotifySettings.vflags settings <> 0%N ->
  let flags := MTPDpeerNotifySettings.vflags settings in
  let self' := snd (change self settings) in
  muteUntil self'
  = (if N.testbit flags peer_mute_until_bit
     then Some (MTPDpeerNotifySettings._vmute_until settings) else None)
  /\ silentPosts self'
     = (if N.testbit flags peer_silent_bit
        then Some (MTPDpeerNotifySettings._vsilent settings) else None)
  /\ option_map NotifySettingsValue._sound (_value self')
     = Some (if N.testbit flags peer_other_sound_bit
             then Some (ParseSound
                          (MTPDpeerNotifySettings._vother_sound settings))
             else None)
  /\ option_map NotifySettingsValue._showPreviews (_value self')
     = Some (if N.testbit flags peer_show_previews_bit
             then Some (MTPDpeerNotifySettings._vshow_previews settings)
             else None).
Proof.
  intros H flags self'. subst self' flags.
  rewrite (TrackerFacts.change_nonempty _ _ H), new_fields.
  repeat split.
Qed.

(** X2.  A non-empty record that sets none of the four flag bits the code
    reads (only bits of other fields) still gives the tracker a value: the
    value has every field empty, so [muteUntil()] and [silentPosts()] are
    empty and [serialize()] has no flag set, and on a tracker without a
    value the call reports a change. *)
Theorem foreign_flags_create_empty_value
    (self : NotifySettings.t) (settings : MTPPeerNotifySettings) :
  MTPDpeerNotifySettings.vflags settings <> 0%N ->
  (forall n,
     In n [peer_show_previews_bit; peer_silent_bit;
           peer_mute_until_bit; peer_other_sound_bit] ->
     N.testbit (MTPDpeerNotifySettings.vflags settings) n = false) ->
  let self' := snd (change self settings) in
  _value self' = Some NotifySettingsValue.uninitialized
  /\ muteUntil self' = None
  /\ silentPosts self' = None
  /\ MTPDinputPeerNotifySettings.vflags (serialize self') = 0%N
  /\ (_value self = None -> fst (change self settings) = true).
Proof.
  intros H Hbits self'.
  assert (Hv : _value self' = Some NotifySettingsValue.uninitialized).
  { subst self'. rewrite (TrackerFacts.change_nonempty _ _ H), new_fields.
    rewrite !Hbits by (cbn [In]; auto). reflexivity. }
  unfold muteUntil, silentPosts, serialize. rewrite Hv.
  repeat split. intros Hnone. unfold change. cbv zeta.
  apply N.eqb_neq in H. rewrite H, Hnone. reflexivity.
Qed.

(** X3.  Which calls leave the tracker with a value.  After a remote record
    the tracker holds a value exactly when the record's flags are not zero;
    after a local change it holds one exactly when it held one before or an
    argument was present.  So only an empty remote record ever removes a
    value. *)
Theorem value_presence (self : NotifySettings.t) (c : Call) :
  has_value (_value (snd (call self c)))
  = match c with
    | ApplyRemote settings =>
        negb (N.eqb (MTPDpeerNotifySettings.vflags settings) 0)
    | ApplyLocal _ muteForSeconds silentPosts =>
        has_value (_value self)
        || has_value muteForSeconds || has_value silentPosts
    end.
Proof.
  assert (Hremote : forall settings,
    has_value (_value (snd (change self settings)))
    = negb (N.eqb (MTPDpeerNotifySettings.vflags settings) 0)).
  { intros settings.
    destruct (N.eq_dec (MTPDpeerNotifySettings.vflags settings) 0) as [H0|H0].
    - rewrite (TrackerFacts.change_empty _ _ H0), H0. reflexivity.
    - rewrite (TrackerFacts.change_nonempty _ _ H0).
      apply N.eqb_neq in H0. rewrite H0. reflexivity. }
  destruct c as [settings|now m s]; cbn [call].
  - apply Hremote.
  - unfold change_local.
    destruct (negb (has_value m) && negb (has_value s)) eqn:Hnone.
    + cbn [snd]. destruct m, s; try discriminate.
      cbn [has_value]. rewrite !orb_false_r. reflexivity.
    + destruct (_value self) as [v|] eqn:Hv.
      * destruct (NotifySettingsValue.change_local v now m s) as [ch v'].
        reflexivity.
      * rewrite Hremote. cbn [has_value orb].
        assert (Hne : has_value m || has_value s = true)
          by (destruct m, s; cbn in *; congruence).
        pose proof (TrackerFacts.local_record_nonempty now m s Hne) as H0.
        apply N.eqb_neq in H0. rewrite H0, Hne. reflexivity.
Qed.

(** X4.  The last remote record decides.  After any sequence of calls on a
    fresh tracker that ends with a remote record, the tracker is known and
    its state is a function of that record alone: no value for an empty
    record, the value built from the record otherwise.  Nothing of earlier
    remote records or local changes survives. *)
Theorem last_remote_determines_state
    (cs : list Call) (settings : MTPPeerNotifySettings) :
  run new (cs ++ [ApplyRemote settings])
  = {| _known := true;
       _value :=
         if N.eqb (MTPDpeerNotifySettings.vflags settings) 0 then None
         else Some (NotifySettingsValue.new settings) |}.
Proof.
  rewrite TrackerFacts.run_app.
  destruct (TrackerFacts.run_known cs new TrackerFacts.new_value_known)
    as [_ Hinv].
  set (self := run new cs) in *.
  change (run self [ApplyRemote settings]) with (snd (change self settings)).
  destruct (N.eqb_spec (MTPDpeerNotifySettings.vflags settings) 0) as [H0|H0].
  - rewrite (TrackerFacts.change_empty _ _ H0). reflexivity.
  - rewrite (TrackerFacts.change_nonempty _ _ H0).
    unfold value_known in Hinv.
    destruct (_value self); [rewrite (Hinv eq_refl)|]; reflexivity.
Qed.

(** X5.  Every call reports a change exactly when it makes one: a remote or
    local change returns false if and only if it leaves the tracker as it
    was. *)
Theorem changed_iff_state_changed (self : NotifySettings.t) (c : Call) :
  fst (call self c) = false <-> snd (call self c) = self.
Proof.
  assert (Hvalue : forall (v : NotifySettingsValue.t)
                     (r : bool * NotifySettingsValue.t),
    (fst r = false <-> snd r = v) ->
    (fst (let '(changed, v') := r in
          (changed, {| _known := _known self; _value := Some v' |})) = false
     <-> snd (let '(changed, v') := r in
              (changed, {| _known := _known self; _value := Some v' |}))
         = {| _known := _known self; _value := Some v |})).
  { intros v [ch v'] Hr. cbn [fst snd] in *. rewrite Hr.
    split; [intros ->; reflexivity|intros H; injection H; auto]. }
  assert (Hremote : forall settings,
    fst (change self settings) = false <-> snd (change self settings) = self).
  { intros settings. unfold change. cbv zeta.
    destruct (N.eqb (MTPDpeerNotifySettings.vflags settings) 0).
    - destruct self as [[|] [v|]]; cbn; split; congruence.
    - destruct self as [k [v|]]; cbn [_value _known].
      + apply Hvalue. unfold NotifySettingsValue.change_data. cbv zeta.
        apply value_change_reports.
      + cbn. split; congruence. }
  destruct c as [settings|now m s]; cbn [call].
  - apply Hremote.
  - unfold change_local.
    destruct (negb (has_value m) && negb (has_value s)).
    + cbn. tauto.
    + destruct (_value self) as [v|] eqn:Hv; [|apply Hremote].
      destruct self as [k v0]. cbn [_value _known] in *. subst v0.
      apply Hvalue. unfold NotifySettingsValue.change_local. cbv zeta.
      apply value_change_reports.
Qed.

(** ** Local changes *)

(** X6.  A local change on a tracker that holds a value touches only what
    it is given: the sound and the show-previews flag are kept, an omitted
    [muteForSeconds] keeps the mute-until timestamp, an omitted
    [silentPosts] keeps the silent flag, and a given [silentPosts] is
    stored. *)
Theorem local_change_keeps_other_fields
    (self : NotifySettings.t) (v : NotifySettingsValue.t)
    (now : TimeId) (muteForSeconds : option Z) (silent : option bool) :
  _value self = Some v ->
  exists v',
    _value (snd (change_local self now muteForSeconds silent)) = Some v'
    /\ NotifySettingsValue._sound v' = NotifySettingsValue._sound v
    /\ NotifySettingsValue._showPreviews v'
       = NotifySettingsValue._showPreviews v
    /\ (muteForSeconds = None ->
        NotifySettingsValue._mute v' = NotifySettingsValue._mute v)
    /\ NotifySettingsValue._silent v'
       = match silent with
         | Some b => Some b
         | None => NotifySettingsValue._silent v
         end.
Proof.
  intros Hv. unfold change_local.
  destruct (negb (has_value muteForSeconds) && negb (has_value silent))
    eqn:Hnone.
  - exists v. cbn [snd]. destruct muteForSeconds, silent; try discriminate.
    auto.
  - rewrite Hv.
    pose proof (ValueFacts.change_stores v) as Hst.
    unfold NotifySettingsValue.change_local. cbv zeta.
    specialize (Hst
      match muteForSeconds with
      | Some m => Some (if 0 <? m then int_add now m else 0)
      | None => NotifySettingsValue._mute v
      end
      (NotifySettingsValue._sound v) (NotifySettingsValue._showPreviews v)
      match silent with
      | Some s => Some s
      | None => NotifySettingsValue._silent v
      end).
    destruct (NotifySettingsValue.change v _ _ _ _) as [ch v'].
    cbn [snd] in Hst. subst v'. eexists. split; [reflexivity|].
    cbn. repeat split. intros ->. reflexivity.
Qed.

(** X7.  A local change on a tracker without a value, with an argument
    present, reports a change, makes the tracker known and gives it exactly
    this value: mute-until [now + muteForSeconds] if [muteForSeconds] was
    given and empty otherwise, the silent flag as given, no sound and no
    show-previews flag. *)
Theorem local_change_constructs
    (self : NotifySettings.t)
    (now : TimeId) (muteForSeconds : option Z) (silent : option bool) :
  scheme_ok S ->
  _value self = None ->
  has_value muteForSeconds || has_value silent = true ->
  change_local self now muteForSeconds silent
  = (true,
     {| _known := true;
        _value :=
          Some {| NotifySettingsValue._mute :=
                    option_map (int_add now) muteForSeconds;
                  NotifySettingsValue._sound := None;
                  NotifySettingsValue._silent := silent;
                  NotifySettingsValue._showPreviews := None |} |}).
Proof.
  intros Hok Hv Hne.
  destruct (peer_bits_distinct Hok) as (Hps & Hpm & Hpo & Hsm & Hso & Hmo).
  pose proof (TrackerFacts.local_record_nonempty now _ _ Hne) as H0.
  apply N.eqb_neq in H0.
  unfold change_local.
  replace (negb (has_value muteForSeconds) && negb (has_value silent))
    with false by (destruct muteForSeconds, silent; cbn in *; congruence).
  rewrite Hv. unfold change. cbv zeta. rewrite H0, Hv, new_fields.
  cbn [local_record MTPDpeerNotifySettings.vflags
       MTPDpeerNotifySettings._vmute_until MTPDpeerNotifySettings._vsilent
       MTPDpeerNotifySettings._vshow_previews
       MTPDpeerNotifySettings._vother_sound].
  unfold MTPDpeerNotifySettings.f_mute_until, MTPDpeerNotifySettings.f_silent.
  rewrite !N.lor_spec, !flag_bits.
  destruct muteForSeconds as [m|], silent as [b|];
    cbn [has_value andb orb option_map]; eqb_cases; reflexivity.
Qed.

(** X8.  Repeating a local change at the same clock reading does nothing,
    as long as [muteForSeconds] is omitted or positive: from every state,
    the second call returns false and leaves the tracker as the first call
    left it. *)
Theorem local_idempotent
    (self : NotifySettings.t)
    (now : TimeId) (muteForSeconds : option Z) (silent : option bool) :
  (forall m, muteForSeconds = Some m -> 0 < m) ->
  let once := snd (change_local self now muteForSeconds silent) in
  change_local once now muteForSeconds silent = (false, once).
Proof.
  intros Hpos once.
  assert (Hltb : forall m, muteForSeconds = Some m -> Z.ltb 0 m = true)
    by (intros m Hm; apply Z.ltb_lt, Hpos, Hm).
  destruct (negb (has_value muteForSeconds) && negb (has_value silent))
    eqn:Hnone.
  { subst once. unfold change_local. rewrite Hnone. cbn [snd].
    reflexivity. }
  assert (Hne : has_value muteForSeconds || has_value silent = true)
    by (destruct muteForSeconds, silent; cbn in *; congruence).
  assert (Honce : exists k v1,
    once = {| _known := k; _value := Some v1 |}
    /\ (forall m, muteForSeconds = Some m ->
        NotifySettingsValue._mute v1 = Some (int_add now m))
    /\ (forall b, silent = Some b ->
        NotifySettingsValue._silent v1 = Some b)).
  { subst once. unfold change_local. rewrite Hnone.
    destruct (_value self) as [v|] eqn:Hv.
    - pose proof (ValueFacts.change_stores v) as Hst.
      unfold NotifySettingsValue.change_local. cbv zeta.
      specialize (Hst
        match muteForSeconds with
        | Some m => Some (if 0 <? m then int_add now m else 0)
        | None => NotifySettingsValue._mute v
        end
        (NotifySettingsValue._sound v) (NotifySettingsValue._showPreviews v)
        match silent with
        | Some s => Some s
        | None => NotifySettingsValue._silent v
        end).
      destruct (NotifySettingsValue.change v _ _ _ _) as [ch v'].
      cbn [snd] in Hst. subst v'. do 2 eexists. split; [reflexivity|].
      cbn. split.
      + intros m Hm. rewrite Hm, (Hltb m Hm). reflexivity.
      + intros b ->. reflexivity.
    - rewrite TrackerFacts.change_nonempty
        by (apply TrackerFacts.local_record_nonempty, Hne).
      do 2 eexists. split; [reflexivity|].
      unfold NotifySettingsValue.new. rewrite ValueFacts.change_data_stores.
      cbn [NotifySettingsValue._mute NotifySettingsValue._silent]. split.
      + intros m ->. apply TrackerFacts.local_record_mute.
      + intros b ->. rewrite local_record_silent. reflexivity. }
  destruct Honce as (k & v1 & -> & Hmute & Hsilent).
  unfold change_local. rewrite Hnone. cbn [_value _known].
  unfold NotifySettingsValue.change_local. cbv zeta.
  replace (match muteForSeconds with
           | Some m => Some (if 0 <? m then int_add now m else 0)
           | None => NotifySettingsValue._mute v1
           end) with (NotifySettingsValue._mute v1).
  2: { destruct muteForSeconds as [m|]; [|reflexivity].
       rewrite (Hmute m eq_refl), (Hltb m eq_refl). reflexivity. }
  replace (match silent with
           | Some s => Some s
           | None => NotifySettingsValue._silent v1
           end) with (NotifySettingsValue._silent v1).
  2: { destruct silent as [b|]; [|reflexivity].
       rewrite (Hsilent b eq_refl). reflexivity. }
  rewrite ValueFacts.change_same. reflexivity.
Qed.

(** X9.  With a non-positive [muteForSeconds] the repetition is not idle on
    a tracker that started without a value: the first call stores
    [now + muteForSeconds], and unless that sum is 0 the second call at the
    same clock reading reports a change and stores 0. *)
Theorem local_unmute_repeat_changes
    (self : NotifySettings.t) (now : TimeId) (m : Z) (silent : option bool) :
  _value self = None ->
  m <= 0 ->
  int_add now m <> 0 ->
  let once := snd (change_local self now (Some m) silent) in
  let twice := change_local once now (Some m) silent in
  muteUntil once = Some (int_add now m)
  /\ fst twice = true
  /\ muteUntil (snd twice) = Some 0.
Proof.
  intros Hv Hm Hsum once twice.
  assert (Hltb : Z.ltb 0 m = false) by (apply Z.ltb_ge, Hm).
  assert (Honce : exists v1,
    once = {| _known := true; _value := Some v1 |}
    /\ NotifySettingsValue._mute v1 = Some (int_add now m)).
  { subst once. unfold change_local. cbn [has_value negb andb]. rewrite Hv.
    rewrite TrackerFacts.change_nonempty
      by (apply TrackerFacts.local_record_nonempty; reflexivity).
    rewrite Hv. eexists. split; [reflexivity|].
    unfold NotifySettingsValue.new. rewrite ValueFacts.change_data_stores.
    apply TrackerFacts.local_record_mute. }
  destruct Honce as (v1 & Hon & Hmute). subst twice. rewrite Hon.
  split; [exact Hmute|].
  unfold change_local. cbn [has_value negb andb _value _known].
  pose proof (ValueFacts.change_local_mute v1 now m silent) as Hst.
  assert (Hch : fst (NotifySettingsValue.change_local v1 now (Some m) silent)
                = true).
  { destruct (fst (NotifySettingsValue.change_local v1 now (Some m) silent))
      eqn:Hf; [reflexivity|].
    unfold NotifySettingsValue.change_local in Hf, Hst. cbv zeta in Hf, Hst.
    apply value_change_reports in Hf. rewrite Hf in Hst.
    unfold NotifySettingsValue.muteUntil in Hst.
    rewrite Hmute, Hltb in Hst. congruence. }
  destruct (NotifySettingsValue.change_local v1 now (Some m) silent)
    as [ch v2].
  cbn [fst snd] in *. split; [exact Hch|].
  unfold muteUntil. cbn [_value]. rewrite Hst, Hltb. reflexivity.
Qed.

(** ** Serialization after a remote record *)

(** X10.  What [serialize()] returns after a non-empty remote record.  Its
    flag for mute-until, silent and show-previews is set exactly when the
    record's flag for that field is, and its sound flag exactly when the
    record's other-sound flag is; a field the record carries is emitted with
    the record's value, the other-sound slot unchanged whenever it is a wire
    sound that [SerializeSound] can produce. *)
Theorem remote_then_serialize
    (self : NotifySettings.t) (settings : MTPPeerNotifySettings) :
  scheme_ok S ->
  MTPDpeerNotifySettings.vflags settings <> 0%N ->
  let flags := MTPDpeerNotifySettings.vflags settings in
  let r := serialize (snd (change self settings)) in
  N.testbit (MTPDinputPeerNotifySettings.vflags r) input_mute_until_bit
  = N.testbit flags peer_mute_until_bit
  /\ N.testbit (MTPDinputPeerNotifySettings.vflags r) input_sound_bit
     = N.testbit flags peer_other_sound_bit
  /\ N.testbit (MTPDinputPeerNotifySettings.vflags r) input_silent_bit
     = N.testbit flags peer_silent_bit
  /\ N.testbit (MTPDinputPeerNotifySettings.vflags r) input_show_previews_bit
     = N.testbit flags peer_show_previews_bit
  /\ (N.testbit flags peer_mute_until_bit = true ->
      MTPDinputPeerNotifySettings.vmute_until r
      = MTPDpeerNotifySettings._vmute_until settings)
  /\ (N.testbit flags peer_silent_bit = true ->
      MTPDinputPeerNotifySettings.vsilent r
      = MTPDpeerNotifySettings._vsilent settings)
  /\ (N.testbit flags peer_show_previews_bit = true ->
      MTPDinputPeerNotifySettings.vshow_previews r
      = MTPDpeerNotifySettings._vshow_previews settings)
  /\ (N.testbit flags peer_other_sound_bit = true ->
      (exists o,
         SerializeSound o = MTPDpeerNotifySettings._vother_sound settings) ->
      MTPDinputPeerNotifySettings.vsound r
      = MTPDpeerNotifySettings._vother_sound settings).
Proof.
  intros Hok H flags r.
  destruct (input_bits_distinct Hok) as (Hps & Hpm & Hpo & Hsm & Hso & Hmo).
  assert (Hr : r = NotifySettingsValue.serialize
                     (NotifySettingsValue.new settings)).
  { subst r. unfold serialize.
    rewrite (TrackerFacts.change_nonempty _ _ H). reflexivity. }
  rewrite Hr, !serialize_bits, new_fields. fold flags.
  cbn [NotifySettingsValue._mute NotifySettingsValue._sound
       NotifySettingsValue._silent NotifySettingsValue._showPreviews].
  repeat split.
  1-4: destruct (N.testbit flags peer_mute_until_bit),
         (N.testbit flags peer_other_sound_bit),
         (N.testbit flags peer_silent_bit),
         (N.testbit flags peer_show_previews_bit);
       cbn [has_value andb orb]; eqb_cases; reflexivity.
  - intros Hb. cbn. rewrite Hb. reflexivity.
  - intros Hb. cbn. rewrite Hb. reflexivity.
  - intros Hb. cbn. rewrite Hb. reflexivity.
  - intros Hb [o Ho].
    cbn [NotifySettingsValue.serialize MTPDinputPeerNotifySettings.vsound
         NotifySettingsValue._sound].
    rewrite Hb.
    destruct (SerializeSound_canonical o) as [Hlocal Hring].
    rewrite Ho in Hlocal, Hring.
    destruct (SerializeSound_ParseSound
                (MTPDpeerNotifySettings._vother_sound settings))
      as [Hw|[[d Hw]|Hw]].
    + exact Hw.
    + destruct (Hlocal d Hw).
    + destruct (Hring Hw).
Qed.

(** ** The sound codec as a normal form *)

(** X11.  Encoding and decoding any [NotifySound], whatever its fields,
    gives a sound in one of the four states; that sound is unchanged by
    another round, and it encodes to the same wire sound as the original. *)
Theorem sound_normal_form (s : NotifySound) :
  let n := ParseSound (SerializeSound (Some s)) in
  SoundState n
  /\ ParseSound (SerializeSound (Some n)) = n
  /\ SerializeSound (Some n) = SerializeSound (Some s).
Proof.
  destruct s as [t d i [|]]; cbn.
  - repeat split. apply StateNone.
  - destruct (N.eqb_spec i 0%N) as [->|Hi]; cbn.
    + destruct t as [|a t]; cbn; repeat split.
      * apply StateDefault.
      * apply StateLocal. reflexivity.
    + apply N.eqb_neq in Hi. rewrite Hi. cbn. repeat split.
      apply StateRingtone. apply N.eqb_neq, Hi.
Qed.

End Extras.

(** ** Instances at the TL scheme *)

Lemma remote_replaces_fields_witness :
  let v :=
    {| NotifySettingsValue._mute := Some 1700003600;
       NotifySettingsValue._sound := None;
       NotifySettingsValue._silent := Some true;
       NotifySettingsValue._showPreviews := Some false |} in
  let self :=
    {| NotifySettings._known := true; NotifySettings._value := Some v |} in
  let settings :=
    MTPDpeerNotifySettings.MTP_peerNotifySettings 2%N false false 1700009999
      MTP_notificationSoundDefault MTP_notificationSoundDefault
      MTP_notificationSoundDefault in
  let self' := snd (NotifySettings.change (S := tl_scheme) self settings) in
  MTPDpeerNotifySettings.vflags settings <> 0%N
  /\ NotifySettings.muteUntil self' = None
  /\ NotifySettings.silentPosts self' = Some false.
Proof.
  intros v self settings self'.
  assert (H : MTPDpeerNotifySettings.vflags settings <> 0%N) by discriminate.
  destruct (@remote_replaces_fields tl_scheme self settings H)
    as (Hm & Hs & _).
  split; [exact H|]. split; [exact Hm|exact Hs].
Defined.

Lemma foreign_flags_create_empty_value_witness :
  let settings :=
    MTPDpeerNotifySettings.MTP_peerNotifySettings 8%N false false 0
      (MTP_notificationSoundRingtone 42%N) MTP_notificationSoundDefault
      MTP_notificationSoundDefault in
  let self' :=
    snd (NotifySettings.change (S := tl_scheme) NotifySettings.new settings) in
  MTPDpeerNotifySettings.vflags settings <> 0%N
  /\ NotifySettings._value self' = Some NotifySettingsValue.uninitialized
  /\ MTPDinputPeerNotifySettings.vflags
       (NotifySettings.serialize (S := tl_scheme) self') = 0%N
  /\ fst (NotifySettings.change (S := tl_scheme) NotifySettings.new settings)
     = true.
Proof.
  intros settings self'.
  assert (H : MTPDpeerNotifySettings.vflags settings <> 0%N) by discriminate.
  assert (Hbits : forall n,
    In n [@peer_show_previews_bit tl_scheme; @peer_silent_bit tl_scheme;
          @peer_mute_until_bit tl_scheme; @peer_other_sound_bit tl_scheme] ->
    N.testbit (MTPDpeerNotifySettings.vflags settings) n = false).
  { intros n [<-|[<-|[<-|[<-|[]]]]]; reflexivity. }
  destruct (@foreign_flags_create_empty_value tl_scheme NotifySettings.new
              settings H Hbits) as (Hv & _ & _ & Hf & Hc).
  split; [exact H|]. split; [exact Hv|]. split; [exact Hf|].
  exact (Hc eq_refl).
Defined.

Lemma local_change_keeps_other_fields_witness :
  let v :=
    {| NotifySettingsValue._mute := Some 1700003600;
       NotifySettingsValue._sound := Some (ParseSound MTP_notificationSoundNone);
       NotifySettingsValue._silent := None;
       NotifySettingsValue._showPreviews := Some false |} in
  let self :=
    {| NotifySettings._known := true; NotifySettings._value := Some v |} in
  exists v',
    NotifySettings._value
      (snd (NotifySettings.change_local (S := tl_scheme) self 1700000000
              None (Some true)))
    = Some v'
    /\ NotifySettingsValue._sound v' = NotifySettingsValue._sound v
    /\ NotifySettingsValue._mute v' = Some 1700003600
    /\ NotifySettingsValue._silent v' = Some true.
Proof.
  intros v self.
  destruct (@local_change_keeps_other_fields tl_scheme self v 1700000000
              None (Some true) eq_refl) as (v' & Hv' & Hs & _ & Hm & Hq).
  exists v'. split; [exact Hv'|]. split; [exact Hs|].
  split; [exact (Hm eq_refl)|exact Hq].
Defined.

Lemma local_change_constructs_witness :
  scheme_ok tl_scheme
  /\ NotifySettings.change_local (S := tl_scheme) NotifySettings.new
       1700000000 None (Some true)
     = (true,
        {| NotifySettings._known := true;
           NotifySettings._value :=
             Some {| NotifySettingsValue._mute := None;
                     NotifySettingsValue._sound := None;
                     NotifySettingsValue._silent := Some true;
                     NotifySettingsValue._showPreviews := None |} |}).
Proof.
  split; [exact tl_scheme_ok|].
  exact (@local_change_constructs tl_scheme NotifySettings.new 1700000000
           None (Some true) tl_scheme_ok eq_refl eq_refl).
Defined.

Lemma local_idempotent_witness :
  let once :=
    snd (NotifySettings.change_local (S := tl_scheme) NotifySettings.new
           1700000000 (Some 3600) (Some false)) in
  0 < 3600
  /\ NotifySettings.change_local (S := tl_scheme) once
       1700000000 (Some 3600) (Some false)
     = (false, once).
Proof.
  intros once.
  assert (Hpos : forall m, Some 3600 = Some m -> 0 < m)
    by (intros m Hm; injection Hm as <-; lia).
  split; [lia|].
  exact (@local_idempotent tl_scheme NotifySettings.new 1700000000
           (Some 3600) (Some false) Hpos).
Defined.

Lemma local_unmute_repeat_changes_witness :
  let once :=
    snd (NotifySettings.change_local (S := tl_scheme) NotifySettings.new
           1700000000 (Some 0) None) in
  let twice :=
    NotifySettings.change_local (S := tl_scheme) once 1700000000 (Some 0) None
  in
  0 <= 0
  /\ int_add 1700000000 0 <> 0
  /\ NotifySettings.muteUntil once = Some (int_add 1700000000 0)
  /\ fst twice = true
  /\ NotifySettings.muteUntil (snd twice) = Some 0.
Proof.
  intros once twice.
  assert (Hm : 0 <= 0) by lia.
  assert (Hsum : int_add 1700000000 0 <> 0) by (vm_compute; discriminate).
  split; [exact Hm|]. split; [exact Hsum|].
  exact (@local_unmute_repeat_changes tl_scheme NotifySettings.new
           1700000000 0 None eq_refl Hm Hsum).
Defined.

Lemma remote_then_serialize_witness :
  let settings :=
    MTPDpeerNotifySettings.MTP_peerNotifySettings 36%N false false 1700003600
      MTP_notificationSoundDefault MTP_notificationSoundDefault
      (MTP_notificationSoundLocal "a"%string
         "b"%string) in
  let r :=
    NotifySettings.serialize (S := tl_scheme)
      (snd (NotifySettings.change (S := tl_scheme) NotifySettings.new
              settings)) in
  scheme_ok tl_scheme
  /\ MTPDpeerNotifySettings.vflags settings <> 0%N
  /\ N.testbit (MTPDinputPeerNotifySettings.vflags r) 3 = true
  /\ N.testbit (MTPDinputPeerNotifySettings.vflags r) 1 = false
  /\ MTPDinputPeerNotifySettings.vmute_until r = 1700003600
  /\ MTPDinputPeerNotifySettings.vsound r
     = MTP_notificationSoundLocal "a"%string
         "b"%string.
Proof.
  intros settings r.
  assert (H : MTPDpeerNotifySettings.vflags settings <> 0%N) by discriminate.
  destruct (@remote_then_serialize tl_scheme NotifySettings.new settings
              tl_scheme_ok H)
    as (_ & Hso & Hsi & _ & Hmu & _ & _ & Hsnd).
  split; [exact tl_scheme_ok|]. split; [exact H|].
  split; [exact Hso|]. split; [exact Hsi|]. split; [exact (Hmu eq_refl)|].
  apply (Hsnd eq_refl).
  exists (Some (ParseSound (MTPDpeerNotifySettings._vother_sound settings))).
  reflexivity.
Defined.
